(** * House-price prediction service: the inference path of [app.py]

    The Flask application loads two pickled artifacts at start-up (a fitted
    scaler and a fitted linear model) and answers [POST /predict] by building
    an eight-slot feature row from the JSON body, standardising it, evaluating
    the model and formatting the result.

    Python's [float] is an IEEE 754 binary64 number; it is modelled by the
    kernel's primitive [float], whose operations are the same binary64
    operations with round-to-nearest-even.  JSON objects (Python [dict]s) are
    finite maps from strings to decoded values; a Python [str] that is used
    as a value is a sequence of code points. *)

From Stdlib Require Import ZArith List String Ascii DecimalString Floats QArith Lia.
From stdpp Require Import base option gmap strings.

Set Warnings "-inexact-float".

(** A Python [float] and a [numpy.float64] are both binary64 numbers. *)
Abbreviation float64 := PrimFloat.float.

(** ** Python values, exceptions and the builtins the handler calls *)

Module Py.

(** A value decoded from JSON by [request.get_json()].  The contents of a
    nested list or object never reach the handler ([float] rejects both by
    type), so they are not represented. *)
Definition pystr : Type := list N.

(** The [str] of an ASCII literal. *)
Definition text (s : string) : pystr := N_of_ascii <$> list_ascii_of_string s.

Inductive value : Type :=
| PyNone
| PyBool (b : bool)
| PyInt (z : Z)
| PyFloat (f : float64)
| PyStr (s : pystr)
| PyList
| PyDict.

(** The exceptions that can reach the handlers.  The text produced by
    [str(e)] is determined by the constructor and its arguments:
    - [FileNotFoundError msg]: [msg];
    - [UnpicklingError]: raised by [pickle.load] on a file that is not a pickle;
    - [OtherError c msg]: an exception of any other class [c] (one that is
      not [FileNotFoundError] nor derived from it), [msg];
    - [ValueError_float s]: "could not convert string to float: " followed by
      [repr(s)];
    - [TypeError_float t]: "float() argument must be a string or a real
      number, not 't'";
    - [OverflowError_float]: "int too large to convert to float";
    - [ValueError msg]: raised inside an estimator method, [msg]. *)
Inductive exn : Type :=
| FileNotFoundError (msg : string)
| UnpicklingError
| OtherError (class_name msg : string)
| ValueError_float (s : pystr)
| TypeError_float (type_name : string)
| OverflowError_float
| ValueError (msg : string).

Inductive result (A : Type) : Type :=
| Ok (a : A)
| Raise (e : exn).
Arguments Ok {A} a.
Arguments Raise {A} e.

#[export] Instance result_ret : MRet result := fun A a => Ok a.
#[export] Instance result_bind : MBind result := fun A B f m =>
  match m with
  | Ok a => f a
  | Raise e => Raise e
  end.

(** *** [math.isfinite]: neither a NaN nor an infinity *)

Definition isfinite (x : float64) : bool :=
  match Prim2SF x with
  | S754_nan | S754_infinity _ => false
  | S754_zero _ | S754_finite _ _ _ => true
  end.

(** *** [float(int)]: the nearest double, ties to even; an [int] whose nearest
    double is infinite raises [OverflowError]. *)

Definition float_of_int (z : Z) : result float64 :=
  match binary_normalize prec emax z 0 false with
  | S754_infinity _ => Raise OverflowError_float
  | sf => Ok (SF2Prim sf)
  end.

(** *** [float(str)]

    A text that is not pure ASCII is first brought to ASCII: a code point
    from 127 on that is a blank becomes a space, one that is a decimal digit
    becomes that ASCII digit, and any other one makes the text invalid.  Then
    blanks around the text are dropped, an underscore is allowed between two
    digits, and the rest is a signed decimal literal with an optional
    exponent, or [inf], [infinity] or [nan] in any case. *)

(** Which code points are blanks and which are decimal digits is decided by
    the Unicode character database the interpreter was built with; it is a
    parameter of [float]. *)
Inductive char_class : Type :=
| Space
| Decimal (digit : N)
| Other.

Class Unicode : Type := char_class_of : N -> char_class.

Definition ascii_of_code_point {U : Unicode} (c : N) : option ascii :=
  if (c <? 127)%N then Some (ascii_of_N c)
  else
    match char_class_of c with
    | Space => Some " "%char
    | Decimal d => if (d <? 10)%N then Some (ascii_of_N (48 + d)) else None
    | Other => None
    end.

Definition to_ascii {U : Unicode} (s : pystr) : option (list ascii) :=
  if forallb (fun c => (c <? 128)%N) s then Some (ascii_of_N <$> s)
  else mapM ascii_of_code_point s.

Definition is_space (c : ascii) : bool :=
  let n := N_of_ascii c in ((9 <=? n) && (n <=? 13) || (n =? 32))%N.

Definition is_digit (c : ascii) : bool :=
  let n := N_of_ascii c in ((48 <=? n) && (n <=? 57))%N.

Definition digit_value (c : ascii) : Z := Z.of_N (N_of_ascii c) - 48.

Definition lower (c : ascii) : ascii :=
  let n := N_of_ascii c in
  if ((65 <=? n) && (n <=? 90))%N then ascii_of_N (n + 32) else c.

Fixpoint lstrip (s : list ascii) : list ascii :=
  match s with
  | c :: t => if is_space c then lstrip t else s
  | [] => []
  end.

Definition strip (s : list ascii) : list ascii := rev (lstrip (rev (lstrip s))).

Definition is_underscore (c : ascii) : bool := (N_of_ascii c =? 95)%N.

(** An underscore is accepted only between two digits, and is then dropped.
    [prev] is the previous character of the input, if any. *)
Fixpoint drop_underscores (prev : option ascii) (s : list ascii) : option (list ascii) :=
  match s with
  | [] =>
      match prev with
      | Some p => if is_underscore p then None else Some []
      | None => Some []
      end
  | c :: t =>
      if is_underscore c then
        match prev with
        | Some p => if is_digit p then drop_underscores (Some c) t else None
        | None => None
        end
      else
        match prev with
        | Some p =>
            if is_underscore p && negb (is_digit c) then None
            else cons c <$> drop_underscores (Some c) t
        | None => cons c <$> drop_underscores (Some c) t
        end
  end.

Fixpoint span_digits (s : list ascii) : list ascii * list ascii :=
  match s with
  | c :: t =>
      if is_digit c then let '(ds, r) := span_digits t in (c :: ds, r)
      else ([], s)
  | [] => ([], [])
  end.

Definition digits_value (ds : list ascii) : Z :=
  fold_left (fun acc c => 10 * acc + digit_value c)%Z ds 0%Z.

(** An optional sign; [true] is minus. *)
Definition split_sign (s : list ascii) : bool * list ascii :=
  match s with
  | c :: t =>
      if (N_of_ascii c =? 45)%N then (true, t)
      else if (N_of_ascii c =? 43)%N then (false, t)
      else (false, s)
  | [] => (false, [])
  end.

(** The exponent part: empty, or [e]/[E], an optional sign and at least one
    digit, up to the end of the text. *)
Definition parse_exponent (s : list ascii) : option Z :=
  match s with
  | [] => Some 0%Z
  | c :: t =>
      if (N_of_ascii (lower c) =? 101)%N then
        let '(neg, t') := split_sign t in
        match span_digits t' with
        | ((_ :: _) as ds, []) => Some (if neg then - digits_value ds else digits_value ds)%Z
        | _ => None
        end
      else None
  end.

(** The double nearest to [(-1)^neg * d * 10^e] (ties to even; overflow gives
    an infinity, underflow a zero or a subnormal). *)
Definition nearest_double (neg : bool) (d : Z) (e : Z) : float64 :=
  match d with
  | Zpos p =>
      if (0 <=? e)%Z then
        SF2Prim (binary_normalize prec emax ((if neg then Z.opp else id) (d * 10 ^ e)%Z) 0 neg)
      else
        SF2Prim (SFdiv prec emax (S754_finite neg p 0)
                                 (S754_finite false (Z.to_pos (10 ^ (- e))) 0))
  | _ => if neg then neg_zero else zero
  end.

Definition parse_decimal (neg : bool) (s : list ascii) : option float64 :=
  let '(ip, r1) := span_digits s in
  let '(fp, r2) :=
    match r1 with
    | c :: t => if (N_of_ascii c =? 46)%N then span_digits t else ([], r1)
    | [] => ([], [])
    end in
  match ip ++ fp with
  | [] => None
  | ds =>
      e ← parse_exponent r2;
      Some (nearest_double neg (digits_value ds) (e - Z.of_nat (length fp)))
  end.

Definition parse_inf_or_nan (neg : bool) (s : list ascii) : option float64 :=
  let w := string_of_list_ascii (map lower s) in
  if bool_decide (w = "inf"%string) || bool_decide (w = "infinity"%string)
  then Some (if neg then neg_infinity else infinity)
  else if bool_decide (w = "nan"%string) then Some nan
  else None.

Definition float_of_str {U : Unicode} (s : pystr) : result float64 :=
  let parsed :=
    chars ← to_ascii s;
    body ← drop_underscores None (strip chars);
    let '(neg, r) := split_sign body in
    match parse_decimal neg r with
    | Some f => Some f
    | None => parse_inf_or_nan neg r
    end in
  match parsed with
  | Some f => Ok f
  | None => Raise (ValueError_float s)
  end.

(** *** The builtin [float(x)] on a decoded JSON value *)

Definition float {U : Unicode} (v : value) : result float64 :=
  match v with
  | PyFloat f => Ok f
  | PyInt z => float_of_int z
  | PyBool b => Ok (if b then one else zero)
  | PyStr s => float_of_str s
  | PyNone => Raise (TypeError_float "NoneType")
  | PyList => Raise (TypeError_float "list")
  | PyDict => Raise (TypeError_float "dict")
  end.

(** *** The database of Unicode 14.0.0 (CPython 3.11), for the worked
    inputs: the blanks from code point 127 on, and the zero of every run of
    ten decimal digits. *)

Definition unicode_14_blanks : list N :=
  [0x85; 0xA0; 0x1680; 0x2000; 0x2001; 0x2002; 0x2003; 0x2004; 0x2005; 0x2006;
   0x2007; 0x2008; 0x2009; 0x200A; 0x2028; 0x2029; 0x202F; 0x205F; 0x3000]%N.

Definition unicode_14_zeros : list N :=
  [0x660; 0x6F0; 0x7C0; 0x966; 0x9E6; 0xA66; 0xAE6; 0xB66; 0xBE6; 0xC66; 0xCE6;
   0xD66; 0xDE6; 0xE50; 0xED0; 0xF20; 0x1040; 0x1090; 0x17E0; 0x1810; 0x1946;
   0x19D0; 0x1A80; 0x1A90; 0x1B50; 0x1BB0; 0x1C40; 0x1C50; 0xA620; 0xA8D0;
   0xA900; 0xA9D0; 0xA9F0; 0xAA50; 0xABF0; 0xFF10; 0x104A0; 0x10D30; 0x11066;
   0x110F0; 0x11136; 0x111D0; 0x112F0; 0x11450; 0x114D0; 0x11650; 0x116C0;
   0x11730; 0x118E0; 0x11950; 0x11C50; 0x11D50; 0x11DA0; 0x16A60; 0x16AC0;
   0x16B50; 0x1D7CE; 0x1D7D8; 0x1D7E2; 0x1D7EC; 0x1D7F6; 0x1E140; 0x1E2F0;
   0x1E950; 0x1FBF0]%N.

#[export] Instance unicode_14 : Unicode | 100 := fun c =>
  if existsb (N.eqb c) unicode_14_blanks then Space
  else
    match List.find (fun z => (z <=? c) && (c <? z + 10))%N unicode_14_zeros with
    | Some z => Decimal (c - z)
    | None => Other
    end.

End Py.

(** ** NumPy scalars: rounding and formatting of [numpy.float64] *)

Module Numpy.

(** The integer nearest to [m * 2^e], ties to even. *)
Definition round_half_even (m : positive) (e : Z) : Z :=
  if (0 <=? e)%Z then Zpos m * 2 ^ e
  else
    let d := (2 ^ (- e))%Z in
    let q := (Zpos m / d)%Z in
    match (2 * (Zpos m mod d) ?= d)%Z with
    | Lt => q
    | Gt => q + 1
    | Eq => if Z.even q then q else q + 1
    end.

(** [numpy.rint]: the nearest integral double, ties to even; zeros,
    infinities and NaN are returned unchanged and the sign is kept. *)
Definition rint (x : float64) : float64 :=
  match Prim2SF x with
  | S754_finite s m e =>
      if (0 <=? e)%Z then x
      else SF2Prim (binary_normalize prec emax (cond_Zopp s (round_half_even m e)) 0 s)
  | _ => x
  end.

Definition power_of_ten (n : nat) : float64 :=
  SF2Prim (binary_normalize prec emax (10 ^ Z.of_nat n) 0 false).

(** [round(x, ndigits)] on a [numpy.float64] (the model's prediction is one)
    with [ndigits >= 0]: [rint] for zero decimals, otherwise multiply by the
    power of ten, [rint], divide. *)
Definition round (x : float64) (ndigits : nat) : float64 :=
  match ndigits with
  | O => rint x
  | _ => let f := power_of_ten ndigits in (rint (x * f) / f)%float
  end.

(** Thousands separators, on the digits in reverse order; [i] counts the
    digits already written in the current group. *)
Fixpoint commas_rev (ds : list ascii) (i : nat) : list ascii :=
  match ds with
  | [] => []
  | c :: t =>
      if Nat.eqb i 3 then ","%char :: c :: commas_rev t 1
      else c :: commas_rev t (S i)
  end.

Definition group_thousands (digits : string) : string :=
  string_of_list_ascii (rev (commas_rev (rev (list_ascii_of_string digits)) 0)).

Definition decimal (n : Z) : string := NilZero.string_of_uint (N.to_uint (Z.to_N n)).

Definition sign_text (s : bool) : string := if s then "-" else "".

(** [format(x, ",.0f")]: no decimals (the exact value rounded half to even),
    a comma every three digits; [nan] and [inf] for the non-finite values. *)
Definition format_comma_0f (x : float64) : string :=
  match Prim2SF x with
  | S754_nan => "nan"
  | S754_infinity s => sign_text s ++ "inf"
  | S754_zero s => sign_text s ++ "0"
  | S754_finite s m e => sign_text s ++ group_thousands (decimal (round_half_even m e))
  end.

End Numpy.

(** ** The pickled artifacts: scikit-learn estimators *)

Module Sklearn.
Import Py.

(** [app.py] uses the scaler only through [scaler.transform] and the model
    only through [model.predict]; an unpickled object is its method.  The
    handler passes one row, and reads the one prediction back with [[0]]. *)
Record Transformer : Type := { transform : list float64 -> result (list float64) }.
Record Regressor : Type := { predict : list float64 -> result float64 }.

(** The files [model/model.pkl] and [model/scaler.pkl] (a fitted [Ridge] and
    a fitted [StandardScaler], written by [train_model.py]) and the
    scikit-learn code behind their methods are not among the sources.  The
    definitions of this module describe them by the words of the
    specification: per-feature [mean] and [scale] for the scaler, [weights]
    and an [intercept] for the model (section 6), and the arithmetic of
    sections 4.3 and 4.4.  scikit-learn's own validation of the row (it
    refuses infinite entries) is not part of that description.  The
    properties of [predict] are proved for arbitrary estimator objects; those
    that name these artifacts hold of the artifacts as the specification
    describes them. *)
Section Affine.
Context {A : Type} (add sub mul div : A -> A -> A).

(** Modelled from the spec: [StandardScaler.transform] is missing; "for each
    index i, compute (vector[i] - params.meanAt(i)) / params.scaleAt(i)". *)
Definition standardize (mean scale x : list A) : list A :=
  zip_with div (zip_with sub x mean) scale.

(** Modelled from the spec: the inverse transform is missing (the
    application never calls one); "destandardize (x*scale+mean)". *)
Definition destandardize (mean scale z : list A) : list A :=
  zip_with add (zip_with mul z scale) mean.

(** Modelled from the spec: the sum inside [Ridge.predict] is missing;
    "sum(standardizedVector[i] * model.weightAt(i) for all i)", accumulated
    from [zero] in the order of the slots. *)
Definition dot (zero : A) (x w : list A) : A :=
  fold_left (fun acc xw => add acc (mul (fst xw) (snd xw))) (zip x w) zero.

End Affine.

(** Modelled from the spec: the error of a row whose width differs from the
    artifact's feature count is missing ("mismatch fails with
    DimensionMismatch"); scikit-learn raises a [ValueError] with this text. *)
Definition n_features_error (got : nat) (who : string) (expected : nat) : exn :=
  ValueError ("X has " ++ NilZero.string_of_uint (Nat.to_uint got) ++ " features, but "
              ++ who ++ " is expecting " ++ NilZero.string_of_uint (Nat.to_uint expected)
              ++ " features as input.").

(** Modelled from the spec: the fitted scaler is missing; its [transform]
    standardises a row of the scaler's width, on doubles. *)
Definition StandardScaler (mean_ scale_ : list float64) : Transformer :=
  {| transform X :=
       if negb (Nat.eqb (length X) (length mean_) && Nat.eqb (length X) (length scale_)) then
         Raise (n_features_error (length X) "StandardScaler" (length mean_))
       else Ok (standardize PrimFloat.sub PrimFloat.div mean_ scale_ X) |}.

(** Modelled from the spec: the fitted model is missing; its [predict]
    returns the weighted sum of a row of the model's width plus the
    intercept, on doubles, with no clamping. *)
Definition Ridge (coef_ : list float64) (intercept_ : float64) : Regressor :=
  {| predict X :=
       if negb (Nat.eqb (length X) (length coef_)) then
         Raise (n_features_error (length X) "Ridge" (length coef_))
       else Ok (dot PrimFloat.add PrimFloat.mul zero X coef_ + intercept_)%float |}.

End Sklearn.

(** ** The application, [app.py] *)

Module App.
Import Py Numpy Sklearn.

(** *** Artifact loading *)

(** What [MODEL_DIR] holds under one of the two file names: nothing; a file
    on which [open] or [pickle.load] raises the exception [e] (a text file, a
    truncated pickle, a file that may not be read, a pickle whose loading
    itself raises: [e] is any exception, [FileNotFoundError] included); a
    pickled object other than [None]; or a pickled [None].  [pickle.load]
    returns whatever was pickled: an object that is not an estimator is one
    whose method raises. *)
Inductive file (A : Type) : Type :=
| Missing
| Unreadable (e : exn)
| Pickled (obj : A)
| PickledNone.
Arguments Missing {A}.
Arguments Unreadable {A} e.
Arguments Pickled {A} obj.
Arguments PickledNone {A}.

Record model_dir : Type := {
  model_pkl : file Regressor;
  scaler_pkl : file Transformer
}.

(** [os.path.exists] *)
Definition path_exists {A : Type} (f : file A) : bool :=
  match f with
  | Missing => false
  | _ => true
  end.

(** [open(path, 'rb')] followed by [pickle.load]; the result is the pickled
    object, which may be [None]. *)
Definition pickle_load {A : Type} (f : file A) : result (option A) :=
  match f with
  | Pickled obj => Ok (Some obj)
  | PickledNone => Ok None
  | Unreadable e => Raise e
  | Missing => Raise (FileNotFoundError "[Errno 2] No such file or directory")
  end.

Definition load_model (d : model_dir) : result (option Regressor * option Transformer) :=
  if negb (path_exists (model_pkl d)) || negb (path_exists (scaler_pkl d)) then
    Raise (FileNotFoundError
             "Model files not found. Please run 'python model/train_model.py' first.")
  else
    model ← pickle_load (model_pkl d);
    scaler ← pickle_load (scaler_pkl d);
    mret (model, scaler).

(** The module-level variables [model] and [scaler]; [None] is Python's
    [None]. *)
Record globals : Type := {
  model : option Regressor;
  scaler : option Transformer
}.

(** Importing the module: the [try] around [load_model] catches
    [FileNotFoundError] only, whoever raised it; any other exception leaves
    the import and the process ends before it serves a request. *)
Inductive process : Type :=
| Running (g : globals)
| Crashed (e : exn).

Definition startup (d : model_dir) : process :=
  match load_model d with
  | Ok (m, s) => Running {| model := m; scaler := s |}
  | Raise (FileNotFoundError _) => Running {| model := None; scaler := None |}
  | Raise e => Crashed e
  end.

(** *** [POST /predict] *)

(** [data.get(key, dflt)] *)
Definition get (data : gmap string value) (key : string) (dflt : value) : value :=
  default dflt (data !! key).

(** The feature row, in the order the model was fitted on. *)
Definition features {U : Unicode} (data : gmap string value) : result (list float64) :=
  MedInc ← float (get data "MedInc" (PyInt 0));
  HouseAge ← float (get data "HouseAge" (PyInt 0));
  AveRooms ← float (get data "AveRooms" (PyInt 0));
  AveBedrms ← float (get data "AveBedrms" (PyInt 0));
  Population ← float (get data "Population" (PyInt 0));
  AveOccup ← float (get data "AveOccup" (PyInt 0));
  Latitude ← float (get data "Latitude" (PyInt 0));
  Longitude ← float (get data "Longitude" (PyInt 0));
  mret [MedInc; HouseAge; AveRooms; AveBedrms; Population; AveOccup; Latitude; Longitude].

(** The [prediction] entry of the success body. *)
Record prediction_entry : Type := {
  price_100k : float64;
  price_usd : float64;
  price_formatted : string
}.

(** The model predicts in units of $100K. *)
Definition format_prediction (prediction : float64) : prediction_entry :=
  let price_100k := prediction in
  let price_usd := (prediction * 100000)%float in
  {| price_100k := round price_100k 2;
     price_usd := round price_usd 0;
     price_formatted := "$" ++ format_comma_0f price_usd |}.

(** The value of the variable [prediction]: the row is built, scaled and
    handed to the model. *)
Definition raw_prediction {U : Unicode} (model : Regressor) (scaler : Transformer)
    (data : gmap string value) : result float64 :=
  row ← features data;
  features_scaled ← transform scaler row;
  predict model features_scaled.

(** The JSON body and the status of a reply of [/predict]:
    [Success p] is [{'success': True, 'prediction': p}] with status 200;
    [Failure status error] is [{'success': False, 'error': error}]. *)
Inductive error_text : Type :=
| Text (s : string)
| Str (e : exn).

Inductive response : Type :=
| Success (p : prediction_entry)
| Failure (status : Z) (error : error_text).

(** The view function.  [data] is the JSON object of the request body. *)
Definition predict {U : Unicode} (g : globals) (data : gmap string value) : response :=
  match model g, scaler g with
  | Some model, Some scaler =>
      match raw_prediction model scaler data with
      | Ok prediction => Success (format_prediction prediction)
      | Raise e => Failure 400 (Str e)
      end
  | _, _ => Failure 500 (Text "Model not loaded. Please train the model first.")
  end.

(** *** [GET /api/feature-ranges] *)

Record feature_range : Type := {
  min : value;
  max : value;
  default : value;
  step : value;
  label : string;
  unit : string
}.

(** [jsonify] of a [dict]: Flask writes the members of a JSON object sorted
    by key, whatever the order of the [dict] literal; the keys here are
    ASCII, compared character by character.  (The six members of an entry
    are sorted likewise; an entry is a record, which fixes no order.) *)
Fixpoint insert_by_key {A : Type} (entry : string * A) (sorted : list (string * A))
    : list (string * A) :=
  match sorted with
  | [] => [entry]
  | e :: rest =>
      if String.leb (fst entry) (fst e) then entry :: sorted
      else e :: insert_by_key entry rest
  end.

Definition jsonify {A : Type} (members : list (string * A)) : list (string * A) :=
  foldr insert_by_key [] members.

Definition get_feature_ranges : list (string * feature_range) :=
  jsonify
  [ ("MedInc", {| min := PyFloat 0.5; max := PyInt 15; default := PyFloat 3.5;
                  step := PyFloat 0.1; label := "Median Income"; unit := "$10,000s" |});
    ("HouseAge", {| min := PyInt 1; max := PyInt 52; default := PyInt 25;
                    step := PyInt 1; label := "House Age"; unit := "years" |});
    ("AveRooms", {| min := PyInt 1; max := PyInt 10; default := PyInt 5;
                    step := PyFloat 0.1; label := "Average Rooms"; unit := "rooms" |});
    ("AveBedrms", {| min := PyFloat 0.5; max := PyInt 5; default := PyInt 1;
                     step := PyFloat 0.1; label := "Average Bedrooms"; unit := "rooms" |});
    ("Population", {| min := PyInt 100; max := PyInt 10000; default := PyInt 1500;
                      step := PyInt 100; label := "Population"; unit := "people" |});
    ("AveOccup", {| min := PyInt 1; max := PyInt 10; default := PyInt 3;
                    step := PyFloat 0.1; label := "Average Occupancy"; unit := "people" |});
    ("Latitude", {| min := PyFloat 32.5; max := PyInt 42; default := PyFloat 35.5;
                    step := PyFloat 0.1; label := "Latitude"; unit := "°N" |});
    ("Longitude", {| min := PyFloat (-124.5); max := PyInt (-114); default := PyFloat (-119.5);
                     step := PyFloat 0.1; label := "Longitude"; unit := "°W" |}) ].

(** *** The server: requests are handled one after the other against the
    module-level variables. *)
Inductive request : Type :=
| GetIndex
| PostPredict (data : gmap string value)
| GetFeatureRanges.

Inductive reply : Type :=
| Page (template : string)
| Predicted (r : response)
| Ranges (ranges : list (string * feature_range)).

(** No view function assigns [model] or [scaler]. *)
Definition handle {U : Unicode} (g : globals) (r : request) : globals * reply :=
  match r with
  | GetIndex => (g, Page "index.html")
  | PostPredict data => (g, Predicted (predict g data))
  | GetFeatureRanges => (g, Ranges get_feature_ranges)
  end.

Fixpoint serve {U : Unicode} (g : globals) (rs : list request) : globals * list reply :=
  match rs with
  | [] => (g, [])
  | r :: rs' =>
      let '(g1, out) := handle g r in
      let '(g2, outs) := serve g1 rs' in
      (g2, out :: outs)
  end.

End App.

(** ** Inputs and artifacts the properties are stated on *)

Module Scenario.
Import Py Numpy Sklearn App.

(** The eight feature names, in the order of the row. *)
Definition feature_names : list string :=
  ["MedInc"; "HouseAge"; "AveRooms"; "AveBedrms";
   "Population"; "AveOccup"; "Latitude"; "Longitude"].

(** The body that spells out, for every feature, the default that
    [data.get(name, 0)] substitutes. *)
Definition explicit_defaults : gmap string value :=
  list_to_map ((fun name => (name, PyInt 0)) <$> feature_names).

(** The body that supplies, for every feature, the default advertised by
    [/api/feature-ranges]. *)
Definition advertised_defaults : gmap string value :=
  list_to_map ((fun entry => (fst entry, default (snd entry))) <$> get_feature_ranges).

Definition zeros : list float64 := replicate 8 zero.
Definition ones : list float64 := replicate 8 one.

(** The artifacts of the worked example: means 0, scales 1, weight 1 on the
    first feature only, intercept 0. *)
Definition unit_scaler : Transformer := StandardScaler zeros ones.
Definition first_feature_model : Regressor := Ridge (one :: replicate 7 zero) zero.

Definition loaded (m : Regressor) (s : Transformer) : globals :=
  {| model := Some m; scaler := Some s |}.

Definition degraded : globals := {| model := None; scaler := None |}.

Definition not_loaded : response :=
  Failure 500 (Text "Model not loaded. Please train the model first.").

(** A model that ignores its input: all weights 0. *)
Definition constant_model : Regressor := Ridge zeros zero.

(** A scaler whose scale for the first feature is 0. *)
Definition zero_scale_scaler : Transformer := StandardScaler zeros (zero :: replicate 7 one).

(** A scaler fitted on three features only. *)
Definition narrow_scaler : Transformer := StandardScaler (replicate 3 zero) (replicate 3 one).

(** A model with weight 2 on the first feature. *)
Definition doubling_model : Regressor := Ridge (two :: replicate 7 zero) zero.

(** Standardisation and its inverse over the rationals and over doubles. *)
Definition standardizeQ : list Q -> list Q -> list Q -> list Q := standardize Qminus Qdiv.
Definition destandardizeQ : list Q -> list Q -> list Q -> list Q := destandardize Qplus Qmult.
Definition standardizeF : list float64 -> list float64 -> list float64 -> list float64 :=
  standardize PrimFloat.sub PrimFloat.div.
Definition destandardizeF : list float64 -> list float64 -> list float64 -> list float64 :=
  destandardize PrimFloat.add PrimFloat.mul.

(** [float.is_integer()]: finite, with no fractional part. *)
Definition is_integer (x : float64) : bool :=
  match Prim2SF x with
  | S754_zero _ => true
  | S754_finite _ m e => (0 <=? e)%Z || (Zpos m mod 2 ^ (- e) =? 0)%Z
  | S754_infinity _ | S754_nan => false
  end.


(** A JSON number that [float] takes without loss or error: a double, or an
    integer below 2^53 in magnitude. *)
Definition plain_number (v : value) : bool :=
  match v with
  | PyFloat _ => true
  | PyInt z => (Z.abs z <? 2 ^ 53)%Z
  | _ => false
  end.

End Scenario.

Import Py Numpy Sklearn App Scenario.

(** ** Basic facts *)

Lemma float_zero_default {U : Unicode} : float (PyInt 0) = Ok zero.
Proof. reflexivity. Qed.

(** A coercion that raises was applied to a value that is present. *)
Lemma float_get_raise {U : Unicode} (data : gmap string value) (key : string) (e : exn) :
  float (get data key (PyInt 0)) = Raise e ->
  exists v, data !! key = Some v /\ float v = Raise e.
Proof.
  unfold get. destruct (data !! key) as [v|]; simpl.
  - intros H. exists v. split; [reflexivity | exact H].
  - intros H. discriminate H.
Qed.

(** Supplying 0 for a key that is missing changes no lookup. *)
Lemma get_insert_default (data : gmap string value) (key k : string) :
  data !! key = None ->
  get (<[key := PyInt 0]> data) k (PyInt 0) = get data k (PyInt 0).
Proof.
  intros Hnone. unfold get.
  destruct (decide (key = k)) as [->|Hne].
  - rewrite lookup_insert_eq, Hnone. reflexivity.
  - rewrite lookup_insert_ne by exact Hne. reflexivity.
Qed.

Lemma features_insert_default {U : Unicode} (data : gmap string value) (key : string) :
  data !! key = None ->
  features (<[key := PyInt 0]> data) = features data.
Proof.
  intros Hnone. unfold features.
  rewrite !(get_insert_default data key) by exact Hnone. reflexivity.
Qed.

Lemma features_empty {U : Unicode} : features ∅ = Ok zeros.
Proof. vm_compute. reflexivity. Qed.

Lemma features_explicit_defaults {U : Unicode} : features explicit_defaults = Ok zeros.
Proof. vm_compute. reflexivity. Qed.

Lemma predict_loaded {U : Unicode} (m : Regressor) (s : Transformer) (data : gmap string value) :
  predict (loaded m s) data =
  match raw_prediction m s data with
  | Ok y => Success (format_prediction y)
  | Raise e => Failure 400 (Str e)
  end.
Proof. reflexivity. Qed.

(** The builtins on a few inputs. *)
Example float_of_decimal_text : float (PyStr (text " 1_000.5e-2 ")) = Ok 10.005%float.
Proof. vm_compute. reflexivity. Qed.

Example float_of_text_rejected :
  float (PyStr (text "1_e5")) = Raise (ValueError_float (text "1_e5")).
Proof. vm_compute. reflexivity. Qed.

(** Fullwidth digits around an ASCII point, between an em space and an
    ideographic space, are read as 3.5; with the fullwidth full stop the text
    is rejected. *)
Example float_of_fullwidth_text :
  float (PyStr [0x2003; 0xFF13; 46; 0xFF15; 0x3000]%N) = Ok 3.5%float
  /\ float (PyStr [0xFF13; 0xFF0E; 0xFF15]%N)
     = Raise (ValueError_float [0xFF13; 0xFF0E; 0xFF15]%N).
Proof. split; vm_compute; reflexivity. Qed.

Example float_of_null : float PyNone = Raise (TypeError_float "NoneType").
Proof. reflexivity. Qed.

Example float_of_true : float (PyBool true) = Ok 1%float.
Proof. reflexivity. Qed.

Example float_of_large_int : float (PyInt 9007199254740993) = Ok 9007199254740992%float.
Proof. vm_compute. reflexivity. Qed.

Example float_of_huge_int : float (PyInt (2 ^ 1024)) = Raise OverflowError_float.
Proof. vm_compute. reflexivity. Qed.

Example format_ties_to_even :
  format_comma_0f 1234567.5 = "1,234,568"%string
  /\ format_comma_0f 1234566.5 = "1,234,566"%string
  /\ format_comma_0f (-0.4) = "-0"%string.
Proof. repeat split; vm_compute; reflexivity. Qed.

Example round_two_decimals : round 3.14159 2 = 3.14%float /\ round 350000.4 0 = 350000%float.
Proof. split; vm_compute; reflexivity. Qed.

(** The reply of [/api/feature-ranges] lists its members by key; they are
    the names the row is built from. *)
Lemma feature_ranges_keys :
  fst <$> get_feature_ranges
  = ["AveBedrms"; "AveOccup"; "AveRooms"; "HouseAge";
     "Latitude"; "Longitude"; "MedInc"; "Population"]%string.
Proof. vm_compute. reflexivity. Qed.

Lemma feature_ranges_names (k : string) :
  In k (fst <$> get_feature_ranges) <-> In k feature_names.
Proof.
  rewrite feature_ranges_keys. unfold feature_names. simpl. tauto.
Qed.

(** The row is built name by name. *)
Lemma features_by_name {U : Unicode} (data : gmap string value) :
  features data = mapM (fun name => float (get data name (PyInt 0))) feature_names.
Proof.
  unfold features, feature_names. simpl.
  repeat (match goal with
          | |- context [float (get data ?name (PyInt 0))] =>
              destruct (float (get data name (PyInt 0))); simpl; try reflexivity
          end).
Qed.

Lemma mapM_ext {A B : Type} (f g : A -> result B) (l : list A) :
  (forall x, In x l -> f x = g x) -> mapM f l = mapM g l.
Proof.
  induction l as [|x l IH]; intros Hfg; simpl; [reflexivity|].
  rewrite (Hfg x) by (left; reflexivity).
  rewrite IH by (intros y Hy; apply Hfg; right; exact Hy).
  reflexivity.
Qed.

Lemma mapM_first_raise {A B : Type} (f : A -> result B) (pre : list A) (x : A)
    (post : list A) (e : exn) :
  (forall a, In a pre -> exists b, f a = Ok b) ->
  f x = Raise e ->
  mapM f (pre ++ x :: post) = Raise e.
Proof.
  induction pre as [|a pre IH]; intros Hpre Hx; simpl.
  - rewrite Hx. reflexivity.
  - destruct (Hpre a (or_introl eq_refl)) as [b Hb]. rewrite Hb. simpl.
    rewrite IH; [reflexivity | | exact Hx].
    intros a' Ha'. apply Hpre. right. exact Ha'.
Qed.

Lemma mapM_Ok_Forall2 {A B : Type} (f : A -> result B) (l : list A) :
  forall ys, mapM f l = Ok ys -> Forall2 (fun x y => f x = Ok y) l ys.
Proof.
  induction l as [|x l IH]; simpl; intros ys H.
  - injection H as <-. constructor.
  - destruct (f x) as [y|e] eqn:Hx; simpl in H; [|discriminate H].
    destruct (mapM f l) as [ys'|e] eqn:Hl; simpl in H; [|discriminate H].
    injection H as <-. constructor; [exact Hx | apply IH; reflexivity].
Qed.

Lemma features_agree {U : Unicode} (data data' : gmap string value) :
  (forall k, In k feature_names -> data !! k = data' !! k) ->
  features data = features data'.
Proof.
  intros H. rewrite !features_by_name. apply mapM_ext.
  intros k Hk. unfold get. rewrite (H k Hk). reflexivity.
Qed.

Lemma predict_of_features {U : Unicode} (g : globals) (data data' : gmap string value) :
  features data = features data' -> predict g data = predict g data'.
Proof.
  intros H. unfold predict, raw_prediction. rewrite H. reflexivity.
Qed.

(** Among the names of a list, the first one whose value is rejected. *)
Lemma first_raise {A B : Type} (f : A -> result B) (l : list A) (x : A) (e0 : exn) :
  In x l -> f x = Raise e0 ->
  exists (pre : list A) (x' : A) (post : list A) (e : exn),
    l = pre ++ x' :: post
    /\ (forall a, In a pre -> exists b, f a = Ok b)
    /\ f x' = Raise e.
Proof.
  induction l as [|a l IH]; intros Hin Hx; [destruct Hin|].
  destruct (f a) as [b|e] eqn:Ha.
  - destruct Hin as [->|Hin]; [congruence|].
    destruct (IH Hin Hx) as (pre & x' & post & e & -> & Hpre & Hx').
    exists (a :: pre), x', post, e. repeat split; [|exact Hx'].
    intros a' [<-|Ha']; [exists b; exact Ha | apply Hpre; exact Ha'].
  - exists [], a, l, e. repeat split; [|exact Ha].
    intros a' [].
Qed.

(** The exception of [float] is determined by the value it rejects: a text
    is quoted, [None], a list and a dict are named by their type, and an
    integer can only be too large. *)
Lemma float_raise_kind {U : Unicode} (v : value) (e : exn) :
  float v = Raise e ->
  match v with
  | PyStr t => e = ValueError_float t
  | PyInt _ => e = OverflowError_float
  | PyNone => e = TypeError_float "NoneType"
  | PyList => e = TypeError_float "list"
  | PyDict => e = TypeError_float "dict"
  | PyBool _ | PyFloat _ => False
  end.
Proof.
  destruct v as [|b|z|f|t| |]; simpl; intros H; try congruence.
  - unfold float_of_int in H.
    destruct (binary_normalize prec emax z 0 false); congruence.
  - unfold float_of_str in H.
    match type of H with (match ?p with _ => _ end) = _ => destruct p end; congruence.
Qed.

(** The reply when the coercion of some feature raises: the exception of the
    first such feature, in row order. *)
Lemma predict_first_rejected {U : Unicode} (m : Regressor) (s : Transformer)
    (data : gmap string value) (pre : list string) (key : string)
    (post : list string) (e : exn) :
  feature_names = pre ++ key :: post ->
  (forall k, In k pre -> exists x, float (get data k (PyInt 0)) = Ok x) ->
  float (get data key (PyInt 0)) = Raise e ->
  predict (loaded m s) data = Failure 400 (Str e).
Proof.
  intros Hnames Hpre Hkey.
  rewrite predict_loaded. unfold raw_prediction.
  rewrite features_by_name, Hnames.
  rewrite (mapM_first_raise _ pre key post e Hpre Hkey). reflexivity.
Qed.

(** The handlers never change the module-level variables. *)
Lemma handle_globals {U : Unicode} (g : globals) (r : request) : fst (handle g r) = g.
Proof. destruct r; reflexivity. Qed.

Lemma serve_globals {U : Unicode} (rs : list request) : forall g, fst (serve g rs) = g.
Proof.
  induction rs as [|r rs IH]; intros g; simpl.
  - reflexivity.
  - destruct (handle g r) as [g1 out] eqn:Hh.
    destruct (serve g1 rs) as [g2 outs] eqn:Hs. simpl.
    pose proof (IH g1) as H1. rewrite Hs in H1. simpl in H1.
    pose proof (handle_globals g r) as H2. rewrite Hh in H2. simpl in H2.
    congruence.
Qed.

(** ** The worked example *)

(** C1: with means 0, scales 1, weights [1,0,0,0,0,0,0,0] and intercept 0
    loaded from the model directory, the body [{"MedInc": 3.5}] gives the raw
    prediction 3.5, and the reply carries 3.5, 350000 and "$350,000". *)
Theorem C1_worked_example {U : Unicode} :
  startup {| model_pkl := Pickled first_feature_model; scaler_pkl := Pickled unit_scaler |}
    = Running (loaded first_feature_model unit_scaler)
  /\ raw_prediction first_feature_model unit_scaler {[ "MedInc" := PyFloat 3.5 ]} = Ok 3.5%float
  /\ predict (loaded first_feature_model unit_scaler) {[ "MedInc" := PyFloat 3.5 ]}
     = Success {| price_100k := 3.5; price_usd := 350000; price_formatted := "$350,000" |}.
Proof. repeat split; vm_compute; reflexivity. Qed.

(** ** Missing keys *)

(** The reply to the empty body is what the estimators make of the all-zero
    row: building the row cannot fail. *)
Lemma predict_empty {U : Unicode} (m : Regressor) (s : Transformer) :
  predict (loaded m s) ∅ =
  match z ← transform s zeros; Sklearn.predict m z with
  | Ok y => Success (format_prediction y)
  | Raise e => Failure 400 (Str e)
  end.
Proof.
  rewrite predict_loaded. unfold raw_prediction. rewrite features_empty. reflexivity.
Qed.

(** C2, as the code has it: for every loaded model, a missing key is the
    same as the key with the value 0.  The empty body builds the all-zero row
    without an exception and gets the reply of the body that spells out every
    default; adding 0 for a key that is missing never changes the reply; the
    reply to the empty body is a failure only if the scaler or the model
    itself refuses the all-zero row, and a success as soon as they accept
    it. *)
Theorem C2_missing_keys_default {U : Unicode} :
  features ∅ = Ok zeros
  /\ (forall (m : Regressor) (s : Transformer),
        predict (loaded m s) ∅ = predict (loaded m s) explicit_defaults)
  /\ (forall (m : Regressor) (s : Transformer) (data : gmap string value) (key : string),
        data !! key = None ->
        predict (loaded m s) (<[key := PyInt 0]> data) = predict (loaded m s) data)
  /\ (forall (m : Regressor) (s : Transformer) (e : exn),
        predict (loaded m s) ∅ = Failure 400 (Str e) ->
        (z ← transform s zeros; Sklearn.predict m z) = Raise e)
  /\ (forall (m : Regressor) (s : Transformer) (z : list float64) (y : float64),
        transform s zeros = Ok z ->
        Sklearn.predict m z = Ok y ->
        predict (loaded m s) ∅ = Success (format_prediction y)).
Proof.
  split; [exact features_empty|].
  split.
  { intros m s. rewrite 2 predict_loaded. unfold raw_prediction.
    rewrite (@features_empty U), (@features_explicit_defaults U). reflexivity. }
  split.
  { intros m s data key Hnone. rewrite 2 predict_loaded. unfold raw_prediction.
    rewrite (features_insert_default data key Hnone). reflexivity. }
  split.
  { intros m s e. rewrite predict_empty.
    destruct (z ← transform s zeros; Sklearn.predict m z) as [y|e'];
      intros H; [discriminate H | congruence]. }
  intros m s z y Hz Hy. rewrite predict_empty. rewrite Hz. simpl. rewrite Hy.
  reflexivity.
Qed.

Lemma C2_missing_keys_default_witness :
  predict (loaded first_feature_model unit_scaler) ∅
  = Success {| price_100k := 0; price_usd := 0; price_formatted := "$0" |}.
Proof.
  destruct (C2_missing_keys_default (U := unicode_14)) as (_ & _ & _ & _ & H).
  apply (H first_feature_model unit_scaler zeros zero); vm_compute; reflexivity.
Defined.

(** C2 does not hold for every loaded model: a scaler fitted on three
    features is loaded like any other, and the empty body then gets a
    status-400 failure, raised by the scaler on the row of eight zeros. *)
Lemma C2_narrow_scaler_rejects_empty_body :
  startup {| model_pkl := Pickled first_feature_model; scaler_pkl := Pickled narrow_scaler |}
    = Running (loaded first_feature_model narrow_scaler)
  /\ features ∅ = Ok zeros
  /\ predict (loaded first_feature_model narrow_scaler) ∅
     = Failure 400 (Str (ValueError
         "X has 8 features, but StandardScaler is expecting 3 features as input.")).
Proof. repeat split; vm_compute; reflexivity. Qed.

(** ** Artifact loading *)

(** C6: when exactly one of [model.pkl] and [scaler.pkl] is present,
    [load_model] raises [FileNotFoundError]. *)
Theorem C6_one_file_missing (d : model_dir) :
  xorb (path_exists (model_pkl d)) (path_exists (scaler_pkl d)) = true ->
  load_model d = Raise (FileNotFoundError
    "Model files not found. Please run 'python model/train_model.py' first.").
Proof.
  intros Hx. unfold load_model.
  destruct (path_exists (model_pkl d)), (path_exists (scaler_pkl d));
    simpl in *; try discriminate Hx; reflexivity.
Qed.

Lemma C6_one_file_missing_witness :
  load_model {| model_pkl := Pickled first_feature_model; scaler_pkl := Missing |}
  = Raise (FileNotFoundError
      "Model files not found. Please run 'python model/train_model.py' first.").
Proof.
  apply (C6_one_file_missing
           {| model_pkl := Pickled first_feature_model; scaler_pkl := Missing |}).
  reflexivity.
Defined.

(** ** What [load_model] checks *)

(** C3, as the code has it: [load_model] does not look inside the scaler.
    Whenever both files are present and unpickle, it returns the two objects
    as they are, whatever the entries of [scale_] (zero and negative ones
    included), and they become the module-level variables used at prediction
    time. *)
Theorem C3_load_model_does_not_validate (m : Regressor) (mean_ scale_ : list float64) :
  load_model {| model_pkl := Pickled m; scaler_pkl := Pickled (StandardScaler mean_ scale_) |}
    = Ok (Some m, Some (StandardScaler mean_ scale_))
  /\ startup {| model_pkl := Pickled m; scaler_pkl := Pickled (StandardScaler mean_ scale_) |}
    = Running (loaded m (StandardScaler mean_ scale_)).
Proof. split; reflexivity. Qed.

(** C3 does not hold as stated: a scaler whose first scale is 0 is loaded,
    becomes the scaler of the running process, and standardisation then
    divides by that 0 (the quotient is an infinity, no exception is raised). *)
Lemma C3_zero_scale_is_loaded :
  load_model {| model_pkl := Pickled first_feature_model; scaler_pkl := Pickled zero_scale_scaler |}
    = Ok (Some first_feature_model, Some zero_scale_scaler)
  /\ startup {| model_pkl := Pickled first_feature_model; scaler_pkl := Pickled zero_scale_scaler |}
    = Running (loaded first_feature_model zero_scale_scaler)
  /\ transform zero_scale_scaler (3.5%float :: replicate 7 zero)
    = Ok (infinity :: replicate 7 zero).
Proof. repeat split; vm_compute; reflexivity. Qed.

(** ** Degraded mode *)

(** C5, as the code has it: when [load_model] raised [FileNotFoundError], the
    process runs with both variables [None], and from then on every
    [/predict] request, after any sequence of earlier requests, gets the
    status-500 "Model not loaded" reply; no prediction is computed. *)
Theorem C5_degraded_after_missing_file {U : Unicode} (d : model_dir) (msg : string) :
  load_model d = Raise (FileNotFoundError msg) ->
  startup d = Running degraded
  /\ forall (earlier : list request) (data : gmap string value),
       predict (fst (serve degraded earlier)) data = not_loaded.
Proof.
  intros Hload. split.
  - unfold startup. rewrite Hload. reflexivity.
  - intros earlier data. rewrite serve_globals. reflexivity.
Qed.

Lemma C5_degraded_after_missing_file_witness :
  startup {| model_pkl := Missing; scaler_pkl := Missing |} = Running degraded
  /\ forall (earlier : list request) (data : gmap string value),
       predict (fst (serve degraded earlier)) data = not_loaded.
Proof.
  apply (C5_degraded_after_missing_file
           {| model_pkl := Missing; scaler_pkl := Missing |}
           "Model files not found. Please run 'python model/train_model.py' first.").
  reflexivity.
Defined.

(** C5 does not hold for every failed load: when a file is present but is
    not a pickle, [load_model] fails with an exception that the start-up code
    does not catch, and the process ends instead of entering degraded mode. *)
Lemma C5_unpickling_failure_crashes :
  load_model {| model_pkl := Unreadable UnpicklingError; scaler_pkl := Pickled unit_scaler |}
    = Raise UnpicklingError
  /\ startup {| model_pkl := Unreadable UnpicklingError; scaler_pkl := Pickled unit_scaler |}
    = Crashed UnpicklingError.
Proof. split; reflexivity. Qed.

(** ** Values that are not numbers *)

(** C4, as the code has it: when some feature is present with a value that
    [float] rejects, the reply is the generic status-400 failure whose error
    is the text of the exception that [float] raised for the first such
    feature in row order.  That exception is determined by the rejected value
    alone: for a text it is the [ValueError] that quotes the text, for
    [None], a list or a dict the [TypeError] that names the type of the
    value, for an integer the [OverflowError]; it does not name the
    feature. *)
Theorem C4_uncoercible_value_is_bad_request {U : Unicode} (m : Regressor) (s : Transformer)
    (data : gmap string value) (key : string) (v : value) (e0 : exn) :
  In key feature_names ->
  data !! key = Some v ->
  float v = Raise e0 ->
  exists (pre : list string) (key' : string) (post : list string) (v' : value) (e : exn),
    feature_names = pre ++ key' :: post
    /\ (forall k, In k pre -> exists x, float (get data k (PyInt 0)) = Ok x)
    /\ data !! key' = Some v' /\ float v' = Raise e
    /\ predict (loaded m s) data = Failure 400 (Str e)
    /\ match v' with
       | PyStr t => e = ValueError_float t
       | PyInt _ => e = OverflowError_float
       | PyNone => e = TypeError_float "NoneType"
       | PyList => e = TypeError_float "list"
       | PyDict => e = TypeError_float "dict"
       | PyBool _ | PyFloat _ => False
       end.
Proof.
  intros Hin Hdata Hfloat.
  assert (Hget : float (get data key (PyInt 0)) = Raise e0).
  { unfold get. rewrite Hdata. exact Hfloat. }
  destruct (first_raise (fun k => float (get data k (PyInt 0))) feature_names key e0 Hin Hget)
    as (pre & key' & post & e & Hnames & Hpre & Hkey').
  destruct (float_get_raise data key' e Hkey') as (v' & Hv' & Hf').
  exists pre, key', post, v', e.
  split; [exact Hnames|]. split; [exact Hpre|].
  split; [exact Hv'|]. split; [exact Hf'|].
  split; [exact (predict_first_rejected m s data pre key' post e Hnames Hpre Hkey')|].
  exact (float_raise_kind v' e Hf').
Qed.

Lemma C4_uncoercible_value_is_bad_request_witness :
  exists (pre : list string) (key' : string) (post : list string) (v' : value) (e : exn),
    feature_names = pre ++ key' :: post
    /\ (forall k, In k pre ->
          exists x, float (get {[ "AveRooms" := PyStr (text "five") ]} k (PyInt 0)) = Ok x)
    /\ ({[ "AveRooms" := PyStr (text "five") ]} : gmap string value) !! key' = Some v'
    /\ float v' = Raise e
    /\ predict (loaded first_feature_model unit_scaler) {[ "AveRooms" := PyStr (text "five") ]}
       = Failure 400 (Str e)
    /\ match v' with
       | PyStr t => e = ValueError_float t
       | PyInt _ => e = OverflowError_float
       | PyNone => e = TypeError_float "NoneType"
       | PyList => e = TypeError_float "list"
       | PyDict => e = TypeError_float "dict"
       | PyBool _ | PyFloat _ => False
       end.
Proof.
  apply (C4_uncoercible_value_is_bad_request (U := unicode_14)
           first_feature_model unit_scaler
           {[ "AveRooms" := PyStr (text "five") ]} "AveRooms" (PyStr (text "five"))
           (ValueError_float (text "five"))).
  - unfold feature_names. simpl. tauto.
  - vm_compute. reflexivity.
  - vm_compute. reflexivity.
Defined.

(** C4 does not hold as stated: the failure is not a typed error naming the
    feature.  The same value in two different features gives the very same
    reply: the text [abc] is quoted, [null] is reported by its type, and
    neither reply tells which feature was wrong. *)
Lemma C4_error_does_not_name_feature :
  predict (loaded first_feature_model unit_scaler) {[ "MedInc" := PyStr (text "abc") ]}
    = Failure 400 (Str (ValueError_float (text "abc")))
  /\ predict (loaded first_feature_model unit_scaler) {[ "HouseAge" := PyStr (text "abc") ]}
    = Failure 400 (Str (ValueError_float (text "abc")))
  /\ predict (loaded first_feature_model unit_scaler) {[ "MedInc" := PyNone ]}
    = Failure 400 (Str (TypeError_float "NoneType"))
  /\ predict (loaded first_feature_model unit_scaler) {[ "HouseAge" := PyNone ]}
    = Failure 400 (Str (TypeError_float "NoneType")).
Proof. repeat split; vm_compute; reflexivity. Qed.

(** ** The round trip of standardisation *)

Lemma round_trip_slot (x m s : Q) : (0 < s)%Q -> ((x - m) / s * s + m == x)%Q.
Proof.
  intros Hs. assert (Hne : ~ (s == 0)%Q).
  { intros H0. rewrite H0 in Hs. exact (Qlt_irrefl 0 Hs). }
  field. exact Hne.
Qed.

(** C8, over the rationals: for a scaler whose scales are all positive and a
    row of the scaler's width, standardising ([(x - mean) / scale] per slot)
    and then applying [x * scale + mean] per slot gives back the row. *)
Theorem C8_round_trip_rationals (mean scale v : list Q) :
  length mean = length v ->
  length scale = length v ->
  Forall (fun s => (0 < s)%Q) scale ->
  Forall2 Qeq (destandardizeQ mean scale (standardizeQ mean scale v)) v.
Proof.
  unfold destandardizeQ, standardizeQ, destandardize, standardize.
  revert mean scale.
  induction v as [|x v IH]; intros [|m mean] [|s scale] Hm Hs Hpos;
    simpl in *; try discriminate; [constructor|].
  inversion Hpos as [|? ? Hs0 Hrest]; subst.
  constructor.
  - apply round_trip_slot. exact Hs0.
  - apply IH; [congruence | congruence | exact Hrest].
Qed.

Lemma C8_round_trip_rationals_witness :
  Forall2 Qeq
    (destandardizeQ
       [3 # 1; 28 # 1; 5 # 1; 1 # 1; 1400 # 1; 3 # 1; 35 # 1; -119 # 1]
       [2 # 1; 12 # 1; 5 # 2; 1 # 2; 1100 # 1; 10 # 1; 2 # 1; 2 # 1]
       (standardizeQ
          [3 # 1; 28 # 1; 5 # 1; 1 # 1; 1400 # 1; 3 # 1; 35 # 1; -119 # 1]
          [2 # 1; 12 # 1; 5 # 2; 1 # 2; 1100 # 1; 10 # 1; 2 # 1; 2 # 1]
          [7 # 2; 25 # 1; 5 # 1; 1 # 1; 1500 # 1; 3 # 1; 71 # 2; -239 # 2]))
    [7 # 2; 25 # 1; 5 # 1; 1 # 1; 1500 # 1; 3 # 1; 71 # 2; -239 # 2].
Proof.
  apply C8_round_trip_rationals.
  - reflexivity.
  - reflexivity.
  - repeat constructor.
Defined.

(** C8 does not hold over doubles: with the positive scale [2^-1000] the
    quotient of [2^100] overflows, and the inverse transform gives back an
    infinity instead of the row. *)
Lemma C8_round_trip_overflows_over_doubles :
  forallb (fun s => (0 <? s)%float) (0x1p-1000%float :: replicate 7 one) = true
  /\ standardizeF zeros (0x1p-1000%float :: replicate 7 one) (0x1p100%float :: replicate 7 zero)
     = infinity :: replicate 7 zero
  /\ destandardizeF zeros (0x1p-1000%float :: replicate 7 one) (infinity :: replicate 7 zero)
     = infinity :: replicate 7 zero.
Proof. repeat split; vm_compute; reflexivity. Qed.

(** ** Predictions that are not finite *)

Lemma non_finite_display (y : float64) :
  isfinite y = false ->
  In (price_formatted (format_prediction y)) ["$nan"; "$inf"; "$-inf"]%string.
Proof.
  unfold isfinite, format_prediction, format_comma_0f. simpl.
  rewrite mul_spec. intros Hy.
  destruct (Prim2SF y) as [sg|sg| |sg mant ex]; try discriminate Hy.
  - replace (Prim2SF 100000) with (S754_finite false 6871947673600000 (-36))
      by (vm_compute; reflexivity).
    destruct sg; simpl; tauto.
  - simpl. tauto.
Qed.

(** C9, as the code has it: formatting has no failure mode.  Whatever value
    the model returns, finite or not, the reply is a success carrying the
    formatted value; a prediction that is not finite is displayed as "$nan",
    "$inf" or "$-inf". *)
Theorem C9_formatter_is_total {U : Unicode} (m : Regressor) (s : Transformer)
    (data : gmap string value) (y : float64) :
  raw_prediction m s data = Ok y ->
  predict (loaded m s) data = Success (format_prediction y)
  /\ (isfinite y = false ->
      In (price_formatted (format_prediction y)) ["$nan"; "$inf"; "$-inf"]%string).
Proof.
  intros Hraw. split.
  - rewrite predict_loaded, Hraw. reflexivity.
  - apply non_finite_display.
Qed.

Lemma C9_formatter_is_total_witness :
  predict (loaded first_feature_model unit_scaler) {[ "MedInc" := PyInt 2 ]}
    = Success (format_prediction 2)
  /\ (isfinite 2 = false ->
      In (price_formatted (format_prediction 2)) ["$nan"; "$inf"; "$-inf"]%string).
Proof.
  apply (C9_formatter_is_total first_feature_model unit_scaler {[ "MedInc" := PyInt 2 ]} 2).
  vm_compute. reflexivity.
Defined.

(** C9 does not hold as stated: a raw prediction that is not finite is
    formatted, not rejected.  A prediction that overflows to an infinity
    (weight 2 on a feature of value [2^1023], a finite row) gets a success
    reply whose display is "$inf"; a NaN is displayed as "$nan". *)
Lemma C9_infinite_prediction_is_formatted :
  raw_prediction doubling_model unit_scaler {[ "MedInc" := PyFloat 0x1p1023 ]} = Ok infinity
  /\ predict (loaded doubling_model unit_scaler) {[ "MedInc" := PyFloat 0x1p1023 ]}
     = Success {| price_100k := infinity; price_usd := infinity; price_formatted := "$inf" |}
  /\ format_prediction nan
     = {| price_100k := nan; price_usd := nan; price_formatted := "$nan" |}.
Proof. repeat split; vm_compute; reflexivity. Qed.

(** ** The defaults of the two endpoints *)

(** C10, as the code has it: the prediction path substitutes 0 for every
    missing key, every default advertised by [/api/feature-ranges] is a
    number other than 0, so the two rows differ in every slot; with the
    artifacts of the worked example the two replies differ ("$0" against
    "$350,000"). *)
Theorem C10_defaults_disagree {U : Unicode} :
  (forall (data : gmap string value) (key : string),
     data !! key = None -> float (get data key (PyInt 0)) = Ok zero)
  /\ features ∅ = Ok [0; 0; 0; 0; 0; 0; 0; 0]%float
  /\ forallb (fun entry =>
                match float (default (snd entry)) with
                | Ok d => negb (d =? 0)%float
                | Raise _ => false
                end) get_feature_ranges = true
  /\ features advertised_defaults = Ok [3.5; 25; 5; 1; 1500; 3; 35.5; -119.5]%float
  /\ predict (loaded first_feature_model unit_scaler) ∅
     = Success {| price_100k := 0; price_usd := 0; price_formatted := "$0" |}
  /\ predict (loaded first_feature_model unit_scaler) advertised_defaults
     = Success {| price_100k := 3.5; price_usd := 350000; price_formatted := "$350,000" |}.
Proof.
  split.
  { intros data key Hnone. unfold get. rewrite Hnone. reflexivity. }
  repeat split; vm_compute; reflexivity.
Qed.

(** C10 does not hold for every model: a model whose weights are all 0
    predicts its intercept for both rows, and the two replies coincide. *)
Lemma C10_constant_model_same_reply :
  predict (loaded constant_model unit_scaler) ∅
    = Success {| price_100k := 0; price_usd := 0; price_formatted := "$0" |}
  /\ predict (loaded constant_model unit_scaler) advertised_defaults
    = Success {| price_100k := 0; price_usd := 0; price_formatted := "$0" |}.
Proof. split; vm_compute; reflexivity. Qed.

(** ** Further properties of the prediction path *)

(** X1: the reply depends on the body only through the eight names that
    [/api/feature-ranges] lists: two bodies that agree on them get the same
    reply, so any other key of the body is ignored. *)
Theorem X1_other_keys_ignored {U : Unicode} (g : globals) (data data' : gmap string value) :
  (forall k, In k (fst <$> get_feature_ranges) -> data !! k = data' !! k) ->
  predict g data = predict g data'.
Proof.
  intros H. apply predict_of_features, features_agree.
  intros k Hk. apply H, feature_ranges_names, Hk.
Qed.

Lemma X1_other_keys_ignored_witness :
  predict (loaded first_feature_model unit_scaler) {[ "MedInc" := PyFloat 3.5 ]}
  = predict (loaded first_feature_model unit_scaler)
      (<[ "Bedrooms" := PyStr (text "many") ]> (<[ "note" := PyNone ]> {[ "MedInc" := PyFloat 3.5 ]})).
Proof.
  apply X1_other_keys_ignored.
  intros k Hk. simpl in Hk.
  repeat (destruct Hk as [<-|Hk]; [vm_compute; reflexivity|]).
  destruct Hk.
Defined.

(** X2: a feature value enters the reply only through [float]: replacing the
    value of any key by one that [float] maps to the same double (the text
    "3.5" for the number 3.5, [true] for 1) or rejects with the same
    exception leaves the reply unchanged. *)
Theorem X2_same_coercion_same_reply {U : Unicode} (g : globals) (data : gmap string value)
    (key : string) (v v' : value) :
  float v = float v' ->
  predict g (<[key := v]> data) = predict g (<[key := v']> data).
Proof.
  intros Hv. apply predict_of_features. rewrite !features_by_name.
  apply mapM_ext. intros k _. unfold get.
  destruct (decide (key = k)) as [->|Hne].
  - rewrite !lookup_insert_eq. simpl. exact Hv.
  - rewrite !lookup_insert_ne by exact Hne. reflexivity.
Qed.

Lemma X2_same_coercion_same_reply_witness :
  predict (loaded first_feature_model unit_scaler)
    (<[ "MedInc" := PyStr (text " 3.5 ") ]> {[ "HouseAge" := PyInt 25 ]})
  = predict (loaded first_feature_model unit_scaler)
    (<[ "MedInc" := PyFloat 3.5 ]> {[ "HouseAge" := PyInt 25 ]}).
Proof.
  apply X2_same_coercion_same_reply. vm_compute. reflexivity.
Defined.

(** X3: the values are coerced in row order and the first rejection ends the
    request: the status-400 reply carries the exception of the first feature,
    in row order, whose value [float] rejects, whatever the later values
    are, and neither the scaler nor the model is consulted. *)
Theorem X3_first_rejected_feature_reported {U : Unicode} (m : Regressor) (s : Transformer)
    (data : gmap string value) (pre : list string) (key : string)
    (post : list string) (e : exn) :
  feature_names = pre ++ key :: post ->
  (forall k, In k pre -> exists x, float (get data k (PyInt 0)) = Ok x) ->
  float (get data key (PyInt 0)) = Raise e ->
  predict (loaded m s) data = Failure 400 (Str e).
Proof.
  exact (predict_first_rejected m s data pre key post e).
Qed.

Lemma X3_first_rejected_feature_reported_witness :
  predict (loaded first_feature_model unit_scaler)
    (<[ "HouseAge" := PyNone ]> {[ "Latitude" := PyStr (text "north") ]})
  = Failure 400 (Str (TypeError_float "NoneType")).
Proof.
  apply (X3_first_rejected_feature_reported first_feature_model unit_scaler _
           ["MedInc"%string] "HouseAge"
           ["AveRooms"; "AveBedrms"; "Population"; "AveOccup"; "Latitude"; "Longitude"]%string).
  - reflexivity.
  - intros k [<-|[]]. exists zero. vm_compute. reflexivity.
  - vm_compute. reflexivity.
Defined.

(** X4: whenever a prediction is computed, the scaler was handed a row of
    exactly eight doubles, in the order MedInc, HouseAge, AveRooms,
    AveBedrms, Population, AveOccup, Latitude, Longitude, each the coercion
    of the body's value for that name, or of 0 when the name is absent, and
    the model was handed the scaler's output. *)
Theorem X4_row_of_eight_in_order {U : Unicode} (m : Regressor) (s : Transformer)
    (data : gmap string value) (y : float64) :
  raw_prediction m s data = Ok y ->
  exists row z : list float64,
    length row = 8%nat
    /\ Forall2 (fun name x => float (get data name (PyInt 0)) = Ok x)
               ["MedInc"; "HouseAge"; "AveRooms"; "AveBedrms";
                "Population"; "AveOccup"; "Latitude"; "Longitude"]%string row
    /\ transform s row = Ok z
    /\ Sklearn.predict m z = Ok y.
Proof.
  unfold raw_prediction. rewrite features_by_name.
  destruct (mapM _ feature_names) as [row|e] eqn:Hrow; simpl; [|discriminate].
  destruct (transform s row) as [z|e] eqn:Hz; simpl; [|discriminate].
  intros Hy. exists row, z.
  pose proof (mapM_Ok_Forall2 _ _ _ Hrow) as HF.
  split; [|split; [exact HF | split; [exact Hz | exact Hy]]].
  apply Forall2_length in HF. rewrite <- HF. reflexivity.
Qed.

Lemma X4_row_of_eight_in_order_witness :
  exists row z : list float64,
    length row = 8%nat
    /\ Forall2 (fun name x => float (get {[ "AveRooms" := PyInt 6 ]} name (PyInt 0)) = Ok x)
               ["MedInc"; "HouseAge"; "AveRooms"; "AveBedrms";
                "Population"; "AveOccup"; "Latitude"; "Longitude"]%string row
    /\ transform unit_scaler row = Ok z
    /\ Sklearn.predict first_feature_model z = Ok 0%float.
Proof.
  apply (X4_row_of_eight_in_order first_feature_model unit_scaler
           {[ "AveRooms" := PyInt 6 ]} 0%float).
  vm_compute. reflexivity.
Defined.

(** ** Start-up *)

(** X5: the process ends at start-up with the exception [e] exactly when
    both files exist, [e] is not a [FileNotFoundError], and [e] is raised by
    loading the model file, or the model file loads and [e] is raised by
    loading the scaler file.  The test for missing files comes first, so a
    missing file next to an unreadable one gives the degraded process, not a
    crash. *)
Theorem X5_startup_crash_iff (d : model_dir) (e : exn) :
  startup d = Crashed e
  <-> (forall msg, e <> FileNotFoundError msg)
      /\ path_exists (model_pkl d) = true /\ path_exists (scaler_pkl d) = true
      /\ (pickle_load (model_pkl d) = Raise e
          \/ ((exists obj, pickle_load (model_pkl d) = Ok obj)
              /\ pickle_load (scaler_pkl d) = Raise e)).
Proof.
  assert (Hcrash : forall (e' : exn) (g : globals),
             (match e' with
              | FileNotFoundError _ => Running g
              | _ => Crashed e'
              end = Crashed e)
             <-> (forall msg, e <> FileNotFoundError msg) /\ e' = e).
  { intros e' g. split.
    - destruct e'; intros H; try discriminate H; injection H as <-;
        (split; [intros msg' Hm; discriminate Hm | reflexivity]).
    - intros [Hn <-]. destruct e'; try reflexivity. destruct (Hn msg eq_refl). }
  unfold startup, load_model.
  destruct (path_exists (model_pkl d)); simpl;
    [|split; [intros H; discriminate H | intros (_ & H & _); discriminate H]].
  destruct (path_exists (scaler_pkl d)); simpl;
    [|split; [intros H; discriminate H | intros (_ & _ & H & _); discriminate H]].
  destruct (pickle_load (model_pkl d)) as [om|em]; simpl.
  - destruct (pickle_load (scaler_pkl d)) as [os|es]; simpl.
    + split; [intros H; discriminate H|].
      intros (_ & _ & _ & [H|[_ H]]); discriminate H.
    + rewrite Hcrash. split.
      * intros [Hn <-]. split; [exact Hn|]. split; [reflexivity|].
        split; [reflexivity|]. right. split; [exists om; reflexivity | reflexivity].
      * intros (Hn & _ & _ & [H|[_ H]]); [discriminate H|].
        injection H as <-. split; [exact Hn | reflexivity].
  - rewrite Hcrash. split.
    * intros [Hn <-]. split; [exact Hn|]. split; [reflexivity|].
      split; [reflexivity|]. left. reflexivity.
    * intros (Hn & _ & _ & [H|[[obj H] _]]); [|discriminate H].
      injection H as <-. split; [exact Hn | reflexivity].
Qed.

(** A truncated scaler file next to a good model file ends the process with
    the [EOFError] of [pickle.load]. *)
Lemma X5_startup_crash_iff_witness :
  startup {| model_pkl := Pickled first_feature_model;
             scaler_pkl := Unreadable (OtherError "EOFError" "Ran out of input") |}
  = Crashed (OtherError "EOFError" "Ran out of input").
Proof.
  apply (proj2 (X5_startup_crash_iff
                  {| model_pkl := Pickled first_feature_model;
                     scaler_pkl := Unreadable (OtherError "EOFError" "Ran out of input") |}
                  (OtherError "EOFError" "Ran out of input"))).
  split; [intros msg H; discriminate H|].
  split; [reflexivity|]. split; [reflexivity|].
  right. split; [eexists; reflexivity | reflexivity].
Defined.

(** X6: the variables of a running process are either both [None], after a
    [FileNotFoundError], or the two objects that [pickle.load] returned, of
    which either may be [None] when a [None] was pickled; and the handler
    answers with the status-500 reply exactly when one of the two is
    [None]. *)
Theorem X6_running_state {U : Unicode} (d : model_dir) (g : globals) :
  startup d = Running g ->
  ((g = degraded /\ exists msg, load_model d = Raise (FileNotFoundError msg))
   \/ (pickle_load (model_pkl d) = Ok (model g)
       /\ pickle_load (scaler_pkl d) = Ok (scaler g)))
  /\ forall data : gmap string value,
       predict g data = not_loaded <-> (model g = None \/ scaler g = None).
Proof.
  intros Hrun. split.
  - unfold startup in Hrun.
    destruct (load_model d) as [[m s]|e] eqn:Hload.
    + right. injection Hrun as <-. simpl.
      unfold load_model in Hload.
      destruct (negb (path_exists (model_pkl d)) || negb (path_exists (scaler_pkl d)));
        [discriminate Hload|].
      destruct (pickle_load (model_pkl d)) as [m'|e']; simpl in Hload; [|discriminate Hload].
      destruct (pickle_load (scaler_pkl d)) as [s'|e']; simpl in Hload; [|discriminate Hload].
      injection Hload as <- <-. split; reflexivity.
    + left. destruct e; try discriminate Hrun. injection Hrun as <-.
      split; [reflexivity | eexists; reflexivity].
  - intros data. destruct g as [[m|] [s|]]; simpl.
    + split.
      * unfold predict. simpl.
        destruct (raw_prediction m s data); intros H; discriminate H.
      * intros [H|H]; discriminate H.
    + split; [intros _; right; reflexivity | reflexivity].
    + split; [intros _; left; reflexivity | reflexivity].
    + split; [intros _; left; reflexivity | reflexivity].
Qed.

(** A scaler file that holds a pickled [None]: the process runs with a model
    and without a scaler. *)
Lemma X6_running_state_witness :
  ((({| model := Some first_feature_model; scaler := None |} = degraded
     /\ exists msg,
          load_model {| model_pkl := Pickled first_feature_model; scaler_pkl := PickledNone |}
          = Raise (FileNotFoundError msg))
    \/ (pickle_load (Pickled first_feature_model) = Ok (Some first_feature_model)
        /\ pickle_load (@PickledNone Transformer) = Ok None))
   /\ forall data : gmap string value,
        predict {| model := Some first_feature_model; scaler := None |} data = not_loaded
        <-> (Some first_feature_model = None \/ @None Transformer = None)).
Proof.
  apply (X6_running_state (U := unicode_14)
           {| model_pkl := Pickled first_feature_model; scaler_pkl := PickledNone |}
           {| model := Some first_feature_model; scaler := None |}).
  reflexivity.
Defined.

(** ** The schema endpoint *)


(** ** Rounding and display of the price *)

Lemma digits2_pos_size (p : positive) : digits2_pos p = Pos.size p.
Proof. induction p; simpl; congruence. Qed.

Lemma digits2_pos_iter_xO (p d : positive) :
  digits2_pos (Pos.iter xO p d) = (digits2_pos p + d)%positive.
Proof.
  induction d as [|d IH] using Pos.peano_ind.
  - simpl. rewrite Pos.add_1_r. reflexivity.
  - rewrite Pos.iter_succ. simpl. rewrite IH, Pos.add_succ_r. reflexivity.
Qed.

Lemma iter_xO_pow (p d : positive) :
  Zpos (Pos.iter xO p d) = (Zpos p * 2 ^ Zpos d)%Z.
Proof.
  induction d as [|d IH] using Pos.peano_ind.
  - simpl. lia.
  - rewrite Pos.iter_succ, Pos2Z.inj_succ, Z.pow_succ_r by lia.
    rewrite Pos2Z.inj_xO, IH. lia.
Qed.

Lemma digits_le_of_le (p : positive) (k : Z) :
  (0 <= k)%Z -> (Zpos p <= 2 ^ k)%Z -> (Zpos (digits2_pos p) <= k + 1)%Z.
Proof.
  intros Hk Hp. rewrite digits2_pos_size.
  pose proof (Pos.size_le p) as Hs.
  assert (H2 : (2 ^ Zpos (Pos.size p) <= 2 ^ (k + 1))%Z).
  { replace (k + 1)%Z with (Z.succ k) by lia. rewrite Z.pow_succ_r by lia.
    change (2 ^ Zpos (Pos.size p))%Z with (Z.pow_pos 2 (Pos.size p)).
    rewrite <- Pos2Z.inj_pow_pos. 
    assert (Zpos (2 ^ Pos.size p) <= Zpos p~0)%Z by (apply Pos2Z.pos_le_pos; exact Hs).
    lia. }
  destruct (Z_le_gt_dec (Zpos (Pos.size p)) (k + 1)) as [Hle|Hgt]; [exact Hle|].
  exfalso. assert (2 ^ (k + 1) < 2 ^ Zpos (Pos.size p))%Z by (apply Z.pow_lt_mono_r; lia).
  lia.
Qed.

Lemma lt_pow_digits (p : positive) : (Zpos p < 2 ^ Zpos (digits2_pos p))%Z.
Proof.
  rewrite digits2_pos_size.
  pose proof (Pos.size_gt p) as H.
  change (2 ^ Zpos (Pos.size p))%Z with (Z.pow_pos 2 (Pos.size p)).
  rewrite <- Pos2Z.inj_pow_pos. apply Pos2Z.pos_lt_pos. exact H.
Qed.

Lemma fexp_canonical (ez : Z) :
  (-1074 <= ez)%Z -> fexp prec emax (53 + ez) = ez.
Proof. intros H. unfold fexp, SpecFloat.emin, prec, emax. lia. Qed.

Lemma binary_round_aux_canonical (s : bool) (mz : positive) (ez : Z) :
  Zpos (digits2_pos mz) = 53%Z -> (-1074 <= ez <= 971)%Z ->
  binary_round_aux prec emax s (Zpos mz) ez loc_Exact = S754_finite s mz ez.
Proof.
  intros Hd He. unfold binary_round_aux.
  assert (Hshr : forall l, shr_fexp prec emax (Zpos mz) ez l
                           = (shr_record_of_loc (Zpos mz) l, ez)).
  { intros l. unfold shr_fexp. cbn [Zdigits2]. rewrite Hd, fexp_canonical by lia.
    rewrite Z.sub_diag. reflexivity. }
  rewrite Hshr. cbn [shr_record_of_loc shr_m loc_of_shr_record round_nearest_even].
  rewrite Hshr. cbn [shr_record_of_loc shr_m].
  replace (ez <=? emax - prec)%Z with true; [reflexivity|].
  symmetry. apply Z.leb_le. unfold emax, prec. lia.
Qed.

Lemma valid_canonical (s : bool) (mz : positive) (ez : Z) :
  Zpos (digits2_pos mz) = 53%Z -> (-1074 <= ez <= 971)%Z ->
  SpecFloat.valid_binary prec emax (S754_finite s mz ez) = true.
Proof.
  intros Hd He. unfold SpecFloat.valid_binary, bounded, canonical_mantissa.
  rewrite Hd, fexp_canonical by lia.
  rewrite Z.eqb_refl. simpl. apply Z.leb_le. unfold emax, prec. lia.
Qed.

(** [binary_round] of a whole number of at most 53 bits is exact. *)
Lemma binary_round_whole (s : bool) (p : positive) :
  (Zpos (digits2_pos p) <= 53)%Z ->
  exists (mz : positive) (k : Z),
    (0 <= k <= 52)%Z /\ Zpos mz = (Zpos p * 2 ^ k)%Z
    /\ Zpos (digits2_pos mz) = 53%Z
    /\ binary_round prec emax s p 0 = S754_finite s mz (- k).
Proof.
  intros Hd. unfold binary_round, shl_align.
  rewrite Z.add_0_r.
  assert (Hf : fexp prec emax (Zpos (digits2_pos p)) = (Zpos (digits2_pos p) - 53)%Z).
  { unfold fexp, SpecFloat.emin, prec, emax. lia. }
  rewrite Hf, Z.sub_0_r.
  destruct (Zpos (digits2_pos p) - 53)%Z as [|q|d] eqn:Hk.
  - exists p, 0%Z. repeat split; try lia.
    apply binary_round_aux_canonical; lia.
  - lia.
  - exists (Pos.iter xO p d), (Zpos d). 
    assert (Hdig : Zpos (digits2_pos (Pos.iter xO p d)) = 53%Z).
    { rewrite digits2_pos_iter_xO. lia. }
    repeat split; try lia.
    + apply iter_xO_pow.
    + change (- Zpos d)%Z with (Zneg d).
      apply binary_round_aux_canonical; [exact Hdig | lia].
Qed.

Lemma round_half_even_exact (mz p : positive) (k : Z) :
  (0 <= k)%Z -> Zpos mz = (Zpos p * 2 ^ k)%Z -> round_half_even mz (- k) = Zpos p.
Proof.
  intros Hk Hmz. unfold round_half_even.
  destruct (0 <=? - k)%Z eqn:Hle.
  - apply Z.leb_le in Hle. assert (k = 0)%Z by lia. subst k.
    simpl in *. lia.
  - rewrite Z.opp_involutive, Hmz.
    assert (Hpos : (0 < 2 ^ k)%Z) by (apply Z.pow_pos_nonneg; lia).
    rewrite Z.div_mul by lia. rewrite Z.mod_mul by lia.
    rewrite Z.mul_0_r.
    destruct (Z.compare_spec 0 (2 ^ k)); [lia | reflexivity | lia].
Qed.

Lemma round_half_even_bound (m : positive) (e : Z) :
  (Zpos (digits2_pos m) <= 53)%Z -> (e < 0)%Z ->
  (0 <= round_half_even m e <= 2 ^ 52)%Z.
Proof.
  intros Hd He. unfold round_half_even.
  replace (0 <=? e)%Z with false by (symmetry; apply Z.leb_gt; exact He).
  pose proof (lt_pow_digits m) as Hm.
  assert (Hm53 : (Zpos m < 2 ^ 53)%Z).
  { eapply Z.lt_le_trans; [exact Hm|]. apply Z.pow_le_mono_r; lia. }
  assert (Hd2 : (2 <= 2 ^ (- e))%Z).
  { change 2%Z with (2 ^ 1)%Z at 1. apply Z.pow_le_mono_r; lia. }
  assert (Hq0 : (0 <= Zpos m / 2 ^ (- e))%Z) by (apply Z.div_pos; lia).
  assert (Hq : (Zpos m / 2 ^ (- e) < 2 ^ 52)%Z).
  { apply Z.div_lt_upper_bound; [lia|].
    change (2 ^ 53)%Z with (2 * 2 ^ 52)%Z in Hm53. nia. }
  destruct (2 * (Zpos m mod 2 ^ (- e)) ?= 2 ^ (- e))%Z;
    [destruct (Z.even _)| |]; lia.
Qed.

Lemma prim_digits (x : float64) (s : bool) (m : positive) (e : Z) :
  Prim2SF x = S754_finite s m e -> (Zpos (digits2_pos m) <= 53)%Z.
Proof.
  intros H. pose proof (Prim2SF_valid x) as Hv. rewrite H in Hv.
  unfold SpecFloat.valid_binary, bounded, canonical_mantissa in Hv.
  apply andb_prop in Hv as [Hc _]. apply Z.eqb_eq in Hc.
  unfold fexp, SpecFloat.emin, prec, emax in Hc. lia.
Qed.

Lemma rint_unchanged (x : float64) :
  match Prim2SF x with
  | S754_finite _ _ e => (0 <= e)%Z
  | _ => True
  end -> rint x = x.
Proof.
  unfold rint. destruct (Prim2SF x) as [| | |s m e]; try reflexivity.
  intros He. apply Z.leb_le in He. rewrite He. reflexivity.
Qed.

Lemma rint_shape (x : float64) (s : bool) (m : positive) (e : Z) :
  Prim2SF x = S754_finite s m e -> (e < 0)%Z ->
  (round_half_even m e = 0%Z /\ Prim2SF (rint x) = S754_zero s)
  \/ (exists (p mz : positive) (k : Z),
        round_half_even m e = Zpos p /\ (0 <= k)%Z
        /\ Zpos mz = (Zpos p * 2 ^ k)%Z
        /\ Prim2SF (rint x) = S754_finite s mz (- k)).
Proof.
  intros H He. unfold rint. rewrite H.
  replace (0 <=? e)%Z with false by (symmetry; apply Z.leb_gt; exact He).
  pose proof (round_half_even_bound m e (prim_digits x s m e H) He) as Hb.
  destruct (round_half_even m e) as [|p|p] eqn:Hr; [left | right | lia].
  - split; [reflexivity|]. destruct s; vm_compute; reflexivity.
  - assert (Hd : (Zpos (digits2_pos p) <= 53)%Z) by (apply (digits_le_of_le p 52); lia).
    destruct (binary_round_whole s p Hd) as (mz & k & Hk & Hmz & Hdig & Hround).
    exists p, mz, k. repeat split; try lia.
    assert (Hn : binary_normalize prec emax (cond_Zopp s (Zpos p)) 0 s
                 = S754_finite s mz (- k)).
    { destruct s; simpl; exact Hround. }
    rewrite Hn. apply Prim2SF_SF2Prim. apply valid_canonical; [exact Hdig | lia].
Qed.

Lemma format_rint (x : float64) : format_comma_0f (rint x) = format_comma_0f x.
Proof.
  destruct (Prim2SF x) as [sg|sg| |s m e] eqn:H;
    try (rewrite rint_unchanged by (rewrite H; exact I); reflexivity).
  destruct (Z_lt_le_dec e 0) as [He|He];
    [|rewrite rint_unchanged by (rewrite H; exact He); reflexivity].
  unfold format_comma_0f. rewrite H.
  destruct (rint_shape x s m e H He) as [[Hr ->]|(p & mz & k & Hr & Hk & Hmz & ->)];
    rewrite Hr.
  - reflexivity.
  - rewrite (round_half_even_exact mz p k Hk Hmz). reflexivity.
Qed.

Lemma rint_is_integer (x : float64) : isfinite (rint x) = true -> is_integer (rint x) = true.
Proof.
  destruct (Prim2SF x) as [sg|sg| |s m e] eqn:H.
  - rewrite rint_unchanged by (rewrite H; exact I). unfold is_integer. rewrite H. reflexivity.
  - rewrite rint_unchanged by (rewrite H; exact I). unfold isfinite. rewrite H. discriminate.
  - rewrite rint_unchanged by (rewrite H; exact I). unfold isfinite. rewrite H. discriminate.
  - intros _. destruct (Z_lt_le_dec e 0) as [He|He].
    + unfold is_integer.
      destruct (rint_shape x s m e H He) as [[Hr ->]|(p & mz & k & Hr & Hk & Hmz & ->)].
      * reflexivity.
      * rewrite Z.opp_involutive, Hmz, Z.mod_mul.
        -- rewrite Z.eqb_refl. apply orb_true_r.
        -- assert (0 < 2 ^ k)%Z by (apply Z.pow_pos_nonneg; lia). lia.
    + rewrite rint_unchanged by (rewrite H; exact He).
      unfold is_integer. rewrite H. apply Z.leb_le in He. rewrite He. reflexivity.
Qed.

(** X7: the display string is the [price_usd] field written with thousands
    separators: rounding for the field and rounding for the display never
    disagree, for any prediction. *)
Theorem X7_display_is_price_usd (y : float64) :
  price_formatted (format_prediction y)
  = ("$" ++ format_comma_0f (price_usd (format_prediction y)))%string.
Proof.
  unfold format_prediction. simpl. unfold round. rewrite format_rint. reflexivity.
Qed.

(** X8: whenever the [price_usd] field is finite it is a whole number of
    dollars. *)
Theorem X8_price_usd_is_whole (y : float64) :
  isfinite (price_usd (format_prediction y)) = true ->
  is_integer (price_usd (format_prediction y)) = true.
Proof.
  unfold format_prediction. simpl. unfold round. apply rint_is_integer.
Qed.

Lemma X8_price_usd_is_whole_witness :
  is_integer (price_usd (format_prediction 2.0685432)) = true.
Proof.
  apply X8_price_usd_is_whole. vm_compute. reflexivity.
Defined.

(** ** Bodies made of numbers *)

Lemma digits_le_of_lt (p : positive) (k : Z) :
  (0 <= k)%Z -> (Zpos p < 2 ^ k)%Z -> (Zpos (digits2_pos p) <= k)%Z.
Proof.
  intros Hk Hp. rewrite digits2_pos_size.
  pose proof (Pos.size_le p) as Hs.
  assert (H2 : (2 ^ Zpos (Pos.size p) < 2 ^ (k + 1))%Z).
  { replace (k + 1)%Z with (Z.succ k) by lia. rewrite Z.pow_succ_r by lia.
    change (2 ^ Zpos (Pos.size p))%Z with (Z.pow_pos 2 (Pos.size p)).
    rewrite <- Pos2Z.inj_pow_pos.
    assert (Zpos (2 ^ Pos.size p) <= Zpos p~0)%Z by (apply Pos2Z.pos_le_pos; exact Hs).
    lia. }
  apply Z.pow_lt_mono_r_iff in H2; lia.
Qed.

Lemma float_plain_number {U : Unicode} (v : value) :
  plain_number v = true -> exists x, float v = Ok x.
Proof.
  destruct v as [|b|z|f|t| |]; simpl; try discriminate.
  - intros Hz. apply Z.ltb_lt in Hz. unfold float_of_int.
    destruct z as [|p|p]; simpl.
    + eexists. reflexivity.
    + assert (Hd : (Zpos (digits2_pos p) <= 53)%Z) by (apply digits_le_of_lt; lia).
      destruct (binary_round_whole false p Hd) as (mz & k & _ & _ & _ & ->).
      eexists. reflexivity.
    + assert (Hd : (Zpos (digits2_pos p) <= 53)%Z) by (apply digits_le_of_lt; lia).
      destruct (binary_round_whole true p Hd) as (mz & k & _ & _ & _ & ->).
      eexists. reflexivity.
  - intros _. eexists. reflexivity.
Qed.

Lemma mapM_all_Ok {A B : Type} (f : A -> result B) (l : list A) :
  (forall a, In a l -> exists b, f a = Ok b) ->
  exists ys, mapM f l = Ok ys /\ length ys = length l.
Proof.
  induction l as [|a l IH]; intros H; simpl.
  - exists []. split; reflexivity.
  - destruct (H a (or_introl eq_refl)) as [b Hb].
    destruct IH as (ys & Hys & Hlen).
    { intros a' Ha'. apply H. right. exact Ha'. }
    exists (b :: ys). rewrite Hb. simpl. rewrite Hys. simpl.
    split; [reflexivity | congruence].
Qed.

(** X10: a body in which every feature that is present is a JSON number (a
    double, or an integer below 2^53 in magnitude) is never rejected by the
    coercion: the row of eight doubles is built, whatever other features are
    missing; only the scaler or the model can then fail the request. *)
Theorem X10_numbers_build_the_row {U : Unicode} (data : gmap string value) :
  (forall (k : string) (v : value),
     In k feature_names -> data !! k = Some v -> plain_number v = true) ->
  exists row : list float64, features data = Ok row /\ length row = 8%nat.
Proof.
  intros H. rewrite features_by_name.
  apply (mapM_all_Ok (fun name => float (get data name (PyInt 0))) feature_names).
  intros k Hk. unfold get.
  destruct (data !! k) as [v|] eqn:Hv; simpl.
  - apply float_plain_number. exact (H k v Hk Hv).
  - eexists. reflexivity.
Qed.

Lemma X10_numbers_build_the_row_witness :
  exists row : list float64,
    features (<[ "Population" := PyInt 1500 ]> {[ "Longitude" := PyFloat (-119.5) ]}) = Ok row
    /\ length row = 8%nat.
Proof.
  apply (X10_numbers_build_the_row (U := unicode_14)).
  intros k v _ Hv.
  apply lookup_insert_Some in Hv as [[_ <-]|[_ Hv]]; [reflexivity|].
  apply lookup_singleton_Some in Hv as [_ <-]. reflexivity.
Defined.
